(** * card-collector-hub: configuration loading and the health-check route

    A shallow embedding of the two Python modules of the repository,

    - [config.py]           (class [Config], resolved from [os.environ]), and
    - [app/routes/main.py]  (blueprint [bp] with the view [health_check]),

    followed by the properties the specification states about them. *)

From stdpp Require Import gmap strings list fin_maps.
From Stdlib Require Import ZArith Ascii.

Local Open Scope string_scope.
Local Open Scope Z_scope.

(** ** Python values and evaluation *)

(** The Python objects that occur in the two modules: [None], booleans,
    strings and dictionaries with string keys. *)
#[warnings="-register-all"]
Inductive pyval : Type :=
| PyNone
| PyBool (b : bool)
| PyStr (s : string)
| PyDict (items : list (string * pyval)).

(** Python's truth value testing: [None], [False], the empty string and
    the empty dictionary are false, everything else is true. *)
Definition truthy (v : pyval) : bool :=
  match v with
  | PyNone => false
  | PyBool b => b
  | PyStr s => negb (String.eqb s "")
  | PyDict items => negb (Nat.eqb (length items) 0)
  end.

(** [a or b] on already evaluated operands: the left operand when it is
    true, the right one otherwise. *)
Definition py_or (a b : pyval) : pyval :=
  if truthy a then a else b.

(** An exception, by class name and message. *)
Inductive exn : Type :=
| PyException (cls msg : string).

(** What running a piece of Python gives: a value, or a raised exception. *)
Inductive outcome (A : Type) : Type :=
| Returned (a : A)
| Raised (e : exn).
Arguments Returned {A} a.
Arguments Raised {A} e.

(** Code that runs against a mutable store [S] and may raise. *)
Definition Py (S A : Type) : Type := S → outcome A * S.

Definition ret {S A} (a : A) : Py S A := λ s, (Returned a, s).

Definition bind {S A B} (m : Py S A) (k : A → Py S B) : Py S B :=
  λ s, match m s with
       | (Returned a, s') => k a s'
       | (Raised e, s') => (Raised e, s')
       end.

Notation "'do' x <- m ; k" := (bind m (λ x, k))
  (at level 10, x name, m at level 100, k at level 200, only parsing).
Notation "'run' m ; k" := (bind m (λ _, k))
  (at level 10, m at level 100, k at level 200, only parsing).

(** ** The process environment *)

(** [os.environ]: a mapping from variable names to strings. *)
Abbreviation environ := (gmap string string).

(** [os.environ.get(key)]: the value, or [None] when the key is absent.
    It reads the mapping and never raises. *)
Definition os_environ_get (key : string) : Py environ pyval :=
  λ env, (Returned (match env !! key with
                    | Some v => PyStr v
                    | None => PyNone
                    end), env).

(** ** python-dotenv

    [load_dotenv] belongs to the python-dotenv package, which [config.py]
    imports.  The definitions below follow its
    [DotEnv.set_as_environment_variables]; the [override] argument is kept
    so that the call in [config.py] reads as it is written.

    Scope: the bindings are taken as the library has parsed them, and an
    assignment [os.environ[k] = v] is followed where it succeeds (the
    interpreter refuses a name with [=] and a NUL byte in name or value).
    The switch [PYTHON_DOTENV_DISABLED], which newer releases read from
    [os.environ] to skip loading, is not part of the model: a statement that
    needs the file to be loaded assumes that variable unset. *)

(** The bindings of the located [.env] file as [DotEnv.dict()] gives them:
    one entry per name, [None] for a name written without a value.  No file
    is the empty mapping. *)
Abbreviation dotenv_values := (gmap string (option string)).

(** One turn of the loop:
    [if k in os.environ and not override: continue];
    [if v is not None: os.environ[k] = v]. *)
Definition set_one (override : bool) (k : string) (v : option string)
    (env : environ) : environ :=
  if bool_decide (is_Some (env !! k)) && negb override then env
  else match v with
       | Some w => <[k:=w]> env
       | None => env
       end.

(** [load_dotenv(override=...)]: [False] when the file binds nothing,
    otherwise every binding is offered to [os.environ] and the result is
    [True]. *)
Definition load_dotenv (override : bool) (values : dotenv_values)
    : Py environ bool :=
  λ env,
    if bool_decide (values = ∅) then (Returned false, env)
    else (Returned true, map_fold (set_one override) env values).

(** ** Flask

    The parts of Flask that [app/routes/main.py] uses. *)

Module flask.

(** A response object: status code, MIME type and the JSON document of
    the body. *)
Record Response : Type := {
  status_code : Z;
  mimetype : string;
  json : pyval
}.

(** [jsonify(obj)]: a response with status 200 and MIME type
    [application/json] that carries [obj]. *)
Definition jsonify {S : Type} (obj : pyval) : Py S Response :=
  ret {| status_code := 200; mimetype := "application/json"; json := obj |}.

(** The bytes of the body: the JSON provider's [dumps] of the document
    followed by a newline. *)
Definition get_data (dumps : pyval → string) (r : Response) : string :=
  dumps (json r) +:+ String "010"%char "".

(** A URL rule: the path, the endpoint (the name of the view function) and
    the accepted methods. *)
Record Rule : Type := {
  rule : string;
  endpoint : string;
  methods : list string
}.

Record Blueprint : Type := {
  name : string;
  import_name : string;
  url_rules : list Rule
}.

(** [Blueprint(name, import_name)] *)
Definition Blueprint_ (name import_name : string) : Blueprint :=
  {| name := name; import_name := import_name; url_rules := [] |}.

(** [@bp.route(rule)] on a function called [f_name]: without a [methods]
    argument the rule accepts [GET].  Scope: [HEAD] and [OPTIONS], which
    Flask adds to such a rule and answers in part by itself, are not
    followed, and the method is compared as written; the statements about
    served requests are about [GET] or hold for every method because the
    path already decides. *)
Definition route (rule : string) (f_name : string) (bp : Blueprint)
    : Blueprint :=
  {| name := name bp;
     import_name := import_name bp;
     url_rules :=
       url_rules bp ++
       [ {| rule := rule; endpoint := f_name; methods := ["GET"] |} ] |}.

Definition matches (method path : string) (r : Rule) : bool :=
  bool_decide (rule r = path) && bool_decide (method ∈ methods r).

(** The endpoint of the first rule that accepts the request, if any. *)
Definition match_request (bp : Blueprint) (method path : string)
    : option string :=
  endpoint <$> List.find (matches method path) (url_rules bp).

End flask.

(** ** config.py *)

Module config.

(** The attributes of [class Config]. *)
Record Config_class : Type := {
  SECRET_KEY : pyval;
  SQLALCHEMY_DATABASE_URI : pyval;
  SQLALCHEMY_TRACK_MODIFICATIONS : pyval
}.

(** The body of [class Config], run once when the class statement is
    executed. *)
Definition Config : Py environ Config_class :=
  do sk <- os_environ_get "SECRET_KEY";
  let SECRET_KEY := py_or sk (PyStr "dev-key-please-change") in
  do db <- os_environ_get "DATABASE_URL";
  let SQLALCHEMY_DATABASE_URI :=
    py_or db (PyStr "postgresql://localhost/card_collector_db") in
  ret {| SECRET_KEY := SECRET_KEY;
         SQLALCHEMY_DATABASE_URI := SQLALCHEMY_DATABASE_URI;
         SQLALCHEMY_TRACK_MODIFICATIONS := PyBool false |}.

(** The module-level bindings of [config.py]. *)
Record globals : Type := {
  g_basedir : string;
  g_Config : Config_class
}.

(** Executing the module: [basedir] is bound to the absolute directory of
    the file ([here]), [load_dotenv()] is called with its defaults, so
    [override=False], and then the class statement runs. *)
Definition import_ (here : string) (values : dotenv_values)
    : Py environ globals :=
  let basedir := here in
  run load_dotenv false values;
  do cls <- Config;
  ret {| g_basedir := basedir; g_Config := cls |}.

End config.

(** ** The running process *)

(** The mutable state of the process: [os.environ] and the module-level
    bindings of the two modules. *)
Record Process : Type := {
  os_environ : environ;
  config_globals : config.globals;
  main_bp : flask.Blueprint
}.

(** [Config.SECRET_KEY] and [Config.SQLALCHEMY_DATABASE_URI], the
    [secret_key] and [database_uri] of the configuration snapshot. *)
Definition secret_key (p : Process) : pyval :=
  config.SECRET_KEY (config.g_Config (config_globals p)).

Definition database_uri (p : Process) : pyval :=
  config.SQLALCHEMY_DATABASE_URI (config.g_Config (config_globals p)).

(** ** app/routes/main.py *)

Module main.

(** [def health_check(): return jsonify({"status": "healthy"})] *)
Definition health_check : Py Process flask.Response :=
  flask.jsonify (PyDict [("status", PyStr "healthy")]).

(** [bp = Blueprint("main", __name__)] with the route that the decorator
    of [health_check] adds. *)
Definition bp (module_name : string) : flask.Blueprint :=
  flask.route "/api/health-check" "health_check"
    (flask.Blueprint_ "main" module_name).

(** The view functions of the module, by endpoint. *)
Definition view_functions (endpoint : string)
    : option (Py Process flask.Response) :=
  if bool_decide (endpoint = "health_check") then Some health_check
  else None.

End main.

(** ** Start-up and the life of the process *)

(** Start-up imports [config.py] against the environment the process was
    given and binds the blueprint of [main.py]. *)
Definition startup (here module_name : string) (values : dotenv_values)
    (env0 : environ) : outcome Process :=
  match config.import_ here values env0 with
  | (Returned g, env) =>
      Returned {| os_environ := env;
                  config_globals := g;
                  main_bp := main.bp module_name |}
  | (Raised e, _) => Raised e
  end.

(** What can happen to a running process: a request arrives, or the
    environment of the process is changed. *)
Inductive event : Type :=
| Request (method path : string)
| SetEnv (k v : string)
| DelEnv (k : string).

Definition set_environ (f : environ → environ) : Py Process () :=
  λ p, (Returned (),
        {| os_environ := f (os_environ p);
           config_globals := config_globals p;
           main_bp := main_bp p |}).

(** A request is answered by the view of the matching rule; a request
    that no rule of the blueprint accepts gets no response from it. *)
Definition handle (method path : string)
    : Py Process (option flask.Response) :=
  λ p, match flask.match_request (main_bp p) method path
             ≫= main.view_functions with
       | Some view => (do r <- view; ret (Some r)) p
       | None => (Returned None, p)
       end.

Definition step (e : event) : Py Process (option flask.Response) :=
  match e with
  | Request method path => handle method path
  | SetEnv k v => run set_environ (insert k v); ret None
  | DelEnv k => run set_environ (delete k); ret None
  end.

(** The state after a history of events. *)
Definition exec (evs : list event) (p : Process) : Process :=
  foldl (λ q e, snd (step e q)) p evs.

(** The health-check query. *)
Definition health_query : event := Request "GET" "/api/health-check".

(** The expected answer. *)
Definition healthy : flask.Response :=
  {| flask.status_code := 200;
     flask.mimetype := "application/json";
     flask.json := PyDict [("status", PyStr "healthy")] |}.

(** What a client receives for the outcome of a request: status, MIME type
    and the bytes of the body, under the serialiser [dumps] of the
    application's JSON provider. *)
Definition served (dumps : pyval → string)
    (o : outcome (option flask.Response)) : option (Z * string * string) :=
  match o with
  | Returned (Some r) =>
      Some (flask.status_code r, flask.mimetype r, flask.get_data dumps r)
  | _ => None
  end.

(** ** The resolution policy in the words of the specification *)

(** "If present and non-empty, use its value; otherwise use a hard-coded
    literal default." *)
Definition resolve_spec (var : option string) (default : string) : string :=
  match var with
  | Some v => if bool_decide (v ≠ "") then v else default
  | None => default
  end.

(** ** Auxiliary facts *)

Section evaluation.

Lemma truthy_str (s : string) : truthy (PyStr s) = bool_decide (s ≠ "").
Proof.
  simpl. destruct (String.eqb_spec s "") as [->|Hne].
  - by rewrite bool_decide_eq_false_2; [|intros H; apply H].
  - by rewrite bool_decide_eq_true_2.
Qed.

(** [os.environ.get(key) or default], for a string [default], is the
    resolution policy applied to the variable. *)
Lemma py_or_environ_get (var : option string) (default : string) :
  py_or (match var with Some v => PyStr v | None => PyNone end)
        (PyStr default)
  = PyStr (resolve_spec var default).
Proof.
  destruct var as [v|]; [|done].
  unfold py_or, resolve_spec. rewrite truthy_str.
  by case_bool_decide.
Qed.

(** The default is a non-empty string, so the resolved value is too. *)
Lemma resolve_spec_nonempty (var : option string) (default : string) :
  default ≠ "" → resolve_spec var default ≠ "".
Proof.
  intros Hd. destruct var as [v|]; simpl; [|done].
  by case_bool_decide.
Qed.

Lemma Config_unfold (env : environ) :
  config.Config env =
  (Returned
     {| config.SECRET_KEY :=
          PyStr (resolve_spec (env !! "SECRET_KEY") "dev-key-please-change");
        config.SQLALCHEMY_DATABASE_URI :=
          PyStr (resolve_spec (env !! "DATABASE_URL")
                   "postgresql://localhost/card_collector_db");
        config.SQLALCHEMY_TRACK_MODIFICATIONS := PyBool false |},
   env).
Proof.
  unfold config.Config, bind, os_environ_get, ret.
  by rewrite !py_or_environ_get.
Qed.

End evaluation.

Section dotenv.

Implicit Types (env : environ) (values : dotenv_values) (k : string).

Lemma set_one_lookup_ne override i x env k :
  i ≠ k → set_one override i x env !! k = env !! k.
Proof.
  intros Hne. unfold set_one.
  destruct (bool_decide _ && negb _); [done|].
  destruct x as [w|]; [|done]. by rewrite lookup_insert_ne.
Qed.

(** Without [override], a variable keeps the value the process already
    had; a variable the process did not have gets the value the file
    gives it, if it gives one. *)
Lemma load_dotenv_lookup values env k :
  snd (load_dotenv false values env) !! k =
  match env !! k with
  | Some v => Some v
  | None => values !! k ≫= id
  end.
Proof.
  unfold load_dotenv. case_bool_decide as Hemp; simpl.
  { subst values. rewrite lookup_empty. by destruct (env !! k). }
  clear Hemp.
  apply (map_fold_weak_ind
           (λ r m, r !! k = match env !! k with
                            | Some v => Some v
                            | None => m !! k ≫= id
                            end)).
  { rewrite lookup_empty. by destruct (env !! k). }
  intros i x m r Hi IH.
  destruct (decide (i = k)) as [->|Hne].
  - rewrite lookup_insert_eq. rewrite Hi in IH. unfold set_one.
    destruct (env !! k) as [v|] eqn:Hk; simpl in *.
    + rewrite IH. rewrite bool_decide_eq_true_2 by eauto. simpl. done.
    + rewrite IH. rewrite bool_decide_eq_false_2 by (by intros [? ?]).
      simpl. destruct x as [w|]; simpl; [by rewrite lookup_insert_eq|done].
  - rewrite set_one_lookup_ne by done. by rewrite lookup_insert_ne.
Qed.

Lemma load_dotenv_returns override values env :
  ∃ b, fst (load_dotenv override values env) = Returned b.
Proof. unfold load_dotenv. case_bool_decide; eauto. Qed.

End dotenv.

Section process.

Implicit Types (p : Process) (evs : list event).

Lemma import_unfold here values env0 :
  config.import_ here values env0 =
  (Returned {| config.g_basedir := here;
               config.g_Config :=
                 {| config.SECRET_KEY :=
                      PyStr (resolve_spec
                               (snd (load_dotenv false values env0)
                                  !! "SECRET_KEY")
                               "dev-key-please-change");
                    config.SQLALCHEMY_DATABASE_URI :=
                      PyStr (resolve_spec
                               (snd (load_dotenv false values env0)
                                  !! "DATABASE_URL")
                               "postgresql://localhost/card_collector_db");
                    config.SQLALCHEMY_TRACK_MODIFICATIONS := PyBool false |}
            |},
   snd (load_dotenv false values env0)).
Proof.
  unfold config.import_, bind.
  destruct (load_dotenv_returns false values env0) as [b Hb].
  destruct (load_dotenv false values env0) as [o env].
  cbn [fst snd] in *. subst o. by rewrite Config_unfold.
Qed.

Lemma startup_unfold here module_name values env0 :
  ∃ p, startup here module_name values env0 = Returned p
       ∧ os_environ p = snd (load_dotenv false values env0)
       ∧ main_bp p = main.bp module_name
       ∧ secret_key p =
           PyStr (resolve_spec (os_environ p !! "SECRET_KEY")
                    "dev-key-please-change")
       ∧ database_uri p =
           PyStr (resolve_spec (os_environ p !! "DATABASE_URL")
                    "postgresql://localhost/card_collector_db").
Proof.
  unfold startup. rewrite import_unfold. eexists. split; [done|]. done.
Qed.

(** No event rebinds a module-level name. *)
Lemma step_globals e p :
  config_globals (snd (step e p)) = config_globals p
  ∧ main_bp (snd (step e p)) = main_bp p.
Proof.
  destruct e as [method path|k v|k]; simpl; [|done..].
  unfold handle.
  destruct (flask.match_request _ _ _ ≫= main.view_functions)
    as [view|] eqn:Hv; [|done].
  apply bind_Some in Hv as (ep & _ & Hv).
  unfold main.view_functions in Hv. case_bool_decide; [|done].
  by simplify_eq.
Qed.

Lemma exec_globals evs p :
  config_globals (exec evs p) = config_globals p
  ∧ main_bp (exec evs p) = main_bp p.
Proof.
  revert p. induction evs as [|e evs IH]; intros p; [done|].
  unfold exec in *. simpl. destruct (IH (snd (step e p))) as [-> ->].
  apply step_globals.
Qed.

(** Serving a request does not raise and leaves the process as it was. *)
Lemma handle_frame method path p :
  ∃ o, handle method path p = (Returned o, p).
Proof.
  unfold handle.
  destruct (flask.match_request _ _ _ ≫= main.view_functions)
    as [view|] eqn:Hv; [|by eexists].
  apply bind_Some in Hv as (ep & _ & Hv).
  unfold main.view_functions in Hv. case_bool_decide; [|done].
  simplify_eq. by eexists.
Qed.

(** On a process whose blueprint is the one of [main.py], the query is
    answered by [health_check] and leaves the process as it was. *)
Lemma step_health_query module_name p :
  main_bp p = main.bp module_name →
  step health_query p = (Returned (Some healthy), p).
Proof. intros Hbp. simpl. unfold handle. by rewrite Hbp. Qed.

End process.

(** ** The health-check route *)

(** C1: whatever the process was started with and whatever has happened to
    it since, the query [GET /api/health-check] is answered with status 200
    and the JSON object [{"status": "healthy"}]; the view function gives that
    response on every process state. *)
Theorem C1_health_check_healthy
    (here module_name : string) (values : dotenv_values) (env0 : environ)
    (evs : list event) :
  ∃ p0, startup here module_name values env0 = Returned p0
    ∧ fst (step (Request "GET" "/api/health-check") (exec evs p0))
      = Returned (Some {| flask.status_code := 200;
                          flask.mimetype := "application/json";
                          flask.json := PyDict [("status", PyStr "healthy")] |})
    ∧ ∀ p, fst (main.health_check p)
           = Returned {| flask.status_code := 200;
                         flask.mimetype := "application/json";
                         flask.json := PyDict [("status", PyStr "healthy")] |}.
Proof.
  destruct (startup_unfold here module_name values env0)
    as (p0 & Hstart & _ & Hbp & _).
  exists p0. split; [done|]. split; [|done].
  destruct (exec_globals evs p0) as [_ Hbp'].
  erewrite step_health_query; [done|]. by rewrite Hbp', Hbp.
Qed.

(** C6: the health check has no memory.  For any serialiser [dumps] of the
    JSON provider and after any two histories of the same process, of any
    length and with any number of earlier health checks among them, the
    query is answered and the status, the MIME type and the bytes of the
    body are the same. *)
Theorem C6_health_check_idempotent
    (dumps : pyval → string)
    (here module_name : string) (values : dotenv_values) (env0 : environ) :
  ∃ p0, startup here module_name values env0 = Returned p0
    ∧ ∀ evs1 evs2 : list event,
        is_Some (served dumps (fst (step health_query (exec evs1 p0))))
        ∧ served dumps (fst (step health_query (exec evs1 p0)))
          = served dumps (fst (step health_query (exec evs2 p0))).
Proof.
  destruct (startup_unfold here module_name values env0)
    as (p0 & Hstart & _ & Hbp & _).
  exists p0. split; [done|]. intros evs1 evs2.
  assert (∀ evs, fst (step health_query (exec evs p0))
                 = Returned (Some healthy)) as Hall.
  { intros evs. destruct (exec_globals evs p0) as [_ Hbp'].
    erewrite step_health_query; [done|]. by rewrite Hbp', Hbp. }
  rewrite !Hall. split; [|done]. simpl. eauto.
Qed.

(** C7: [health_check] returns a response, it does not raise, and the state
    of the process after the call (the environment, the bindings of
    [config.py] with the configuration snapshot, the blueprint) is the state
    before it; the same holds when the call is made by serving the query. *)
Theorem C7_health_check_no_side_effects (p : Process) :
  (∃ r, main.health_check p = (Returned r, p))
  ∧ ∃ o, step health_query p = (Returned o, p).
Proof.
  split; [by eexists|]. simpl. apply handle_frame.
Qed.

(** C9: the response of [health_check] is the same on any two process
    states, and so for processes started from any two environments and
    [.env] files: the configuration does not flow into it. *)
Theorem C9_health_check_ignores_configuration
    (here module_name : string)
    (values1 values2 : dotenv_values) (env1 env2 : environ) :
  (∀ p1 p2, fst (main.health_check p1) = fst (main.health_check p2))
  ∧ ∃ p1 p2,
      startup here module_name values1 env1 = Returned p1
      ∧ startup here module_name values2 env2 = Returned p2
      ∧ fst (step health_query p1) = fst (step health_query p2).
Proof.
  split; [done|].
  destruct (startup_unfold here module_name values1 env1)
    as (p1 & Hs1 & _ & Hbp1 & _).
  destruct (startup_unfold here module_name values2 env2)
    as (p2 & Hs2 & _ & Hbp2 & _).
  exists p1, p2. split; [done|]. split; [done|].
  by rewrite (step_health_query _ _ Hbp1), (step_health_query _ _ Hbp2).
Qed.

(** ** Configuration resolution *)

(** C2: for every environment the class body gives [SECRET_KEY] the value
    of the variable [SECRET_KEY] when it is present and non-empty and
    ["dev-key-please-change"] otherwise, and [SQLALCHEMY_DATABASE_URI] the
    value of [DATABASE_URL] when it is present and non-empty and
    ["postgresql://localhost/card_collector_db"] otherwise.  With
    [SECRET_KEY=abc123] and [DATABASE_URL=postgresql://example/test] the two
    values are [abc123] and [postgresql://example/test]. *)
Theorem C2_resolution_policy (env : environ) :
  (∃ c, fst (config.Config env) = Returned c
        ∧ config.SECRET_KEY c
          = PyStr (resolve_spec (env !! "SECRET_KEY") "dev-key-please-change")
        ∧ config.SQLALCHEMY_DATABASE_URI c
          = PyStr (resolve_spec (env !! "DATABASE_URL")
                     "postgresql://localhost/card_collector_db"))
  ∧ fst (config.Config
           (<["SECRET_KEY" := "abc123"]>
              (<["DATABASE_URL" := "postgresql://example/test"]> ∅)))
    = Returned {| config.SECRET_KEY := PyStr "abc123";
                  config.SQLALCHEMY_DATABASE_URI :=
                    PyStr "postgresql://example/test";
                  config.SQLALCHEMY_TRACK_MODIFICATIONS := PyBool false |}.
Proof.
  split.
  - rewrite Config_unfold. eexists. by split.
  - by vm_compute.
Qed.

(** C3: when neither [SECRET_KEY] nor [DATABASE_URL] is in the environment,
    the configuration holds the two literal defaults. *)
Theorem C3_defaults_when_unset (env : environ) :
  env !! "SECRET_KEY" = None →
  env !! "DATABASE_URL" = None →
  fst (config.Config env)
  = Returned {| config.SECRET_KEY := PyStr "dev-key-please-change";
                config.SQLALCHEMY_DATABASE_URI :=
                  PyStr "postgresql://localhost/card_collector_db";
                config.SQLALCHEMY_TRACK_MODIFICATIONS := PyBool false |}.
Proof. intros Hsk Hdb. rewrite Config_unfold. by rewrite Hsk, Hdb. Qed.

(** The empty environment is one in which both variables are unset. *)
Lemma C3_defaults_when_unset_witness :
  (∅ : environ) !! "SECRET_KEY" = None
  ∧ (∅ : environ) !! "DATABASE_URL" = None
  ∧ fst (config.Config ∅)
  = Returned {| config.SECRET_KEY := PyStr "dev-key-please-change";
                config.SQLALCHEMY_DATABASE_URI :=
                  PyStr "postgresql://localhost/card_collector_db";
                config.SQLALCHEMY_TRACK_MODIFICATIONS := PyBool false |}.
Proof.
  split; [reflexivity|]. split; [reflexivity|].
  apply (C3_defaults_when_unset ∅); reflexivity.
Defined.

(** C4: when [SECRET_KEY] is set to the empty string, the resolved
    [SECRET_KEY] is the default ["dev-key-please-change"], not the empty
    string. *)
Theorem C4_empty_secret_key_is_unset (env : environ) :
  env !! "SECRET_KEY" = Some "" →
  ∃ c, fst (config.Config env) = Returned c
       ∧ config.SECRET_KEY c = PyStr "dev-key-please-change"
       ∧ config.SECRET_KEY c ≠ PyStr "".
Proof.
  intros Hsk. rewrite Config_unfold. eexists. split; [done|].
  simpl. by rewrite Hsk.
Qed.

(** An environment that holds only [SECRET_KEY=""]. *)
Lemma C4_empty_secret_key_is_unset_witness :
  (<["SECRET_KEY" := ""]> ∅ : environ) !! "SECRET_KEY" = Some ""
  ∧ ∃ c, fst (config.Config (<["SECRET_KEY" := ""]> ∅)) = Returned c
       ∧ config.SECRET_KEY c = PyStr "dev-key-please-change"
       ∧ config.SECRET_KEY c ≠ PyStr "".
Proof.
  split; [reflexivity|].
  apply (C4_empty_secret_key_is_unset (<["SECRET_KEY" := ""]> ∅)).
  reflexivity.
Defined.

(** C5: on every environment, with either or both variables absent or
    empty, the class body returns a configuration, never an exception, and
    leaves the environment as it was; both settings are non-empty
    strings. *)
Theorem C5_resolution_total (env : environ) :
  ∃ sk db,
    config.Config env
    = (Returned {| config.SECRET_KEY := PyStr sk;
                   config.SQLALCHEMY_DATABASE_URI := PyStr db;
                   config.SQLALCHEMY_TRACK_MODIFICATIONS := PyBool false |},
       env)
    ∧ sk ≠ "" ∧ db ≠ "".
Proof.
  rewrite Config_unfold. do 2 eexists. split; [done|].
  split; by apply resolve_spec_nonempty.
Qed.

(** C8: the configuration of a started process stays what start-up made it.
    After any history of requests and changes of the environment, reading
    [secret_key] and [database_uri] gives the values read right after
    start-up. *)
Theorem C8_configuration_fixed_after_startup
    (here module_name : string) (values : dotenv_values) (env0 : environ) :
  ∃ p0, startup here module_name values env0 = Returned p0
    ∧ ∀ evs : list event,
        secret_key (exec evs p0) = secret_key p0
        ∧ database_uri (exec evs p0) = database_uri p0.
Proof.
  destruct (startup_unfold here module_name values env0)
    as (p0 & Hstart & _).
  exists p0. split; [done|]. intros evs.
  unfold secret_key, database_uri.
  by destruct (exec_globals evs p0) as [-> _].
Qed.

(** The environment does change under [SetEnv]; the configuration does not
    follow it. *)
Example configuration_outlives_environment :
  ∃ p0, startup "/srv/app" "app.routes.main" ∅ ∅ = Returned p0
    ∧ os_environ (exec [SetEnv "SECRET_KEY" "rotated"] p0) !! "SECRET_KEY"
      = Some "rotated"
    ∧ secret_key (exec [SetEnv "SECRET_KEY" "rotated"] p0)
      = PyStr "dev-key-please-change".
Proof. eexists. split; [by vm_compute|]. split; by vm_compute. Qed.

(** ** Precedence between the process environment and the [.env] file *)

(** C10, as stated, fails where the process environment sets a variable to
    the empty string: with [SECRET_KEY=""] in the process environment and
    [SECRET_KEY=from-dotenv] in the file, the resolved [secret_key] is the
    default ["dev-key-please-change"], which is neither the value the process
    environment had nor the value of the file. *)
Lemma C10_counterexample_empty_value :
  (<["SECRET_KEY" := ""]> ∅ : environ) !! "SECRET_KEY" = Some ""
  ∧ ∃ p, startup "/srv/app" "app.routes.main"
           (<["SECRET_KEY" := Some "from-dotenv"]> ∅)
           (<["SECRET_KEY" := ""]> ∅)
         = Returned p
         ∧ secret_key p = PyStr "dev-key-please-change"
         ∧ secret_key p ≠ PyStr "".
Proof.
  split; [reflexivity|]. eexists. split; [by vm_compute|].
  split; [by vm_compute|]. by vm_compute.
Qed.

(** C10, amended: a variable that the process environment already holds is
    resolved from the value it holds there, whatever the [.env] file gives
    for it: the value itself when it is non-empty, the literal default when
    it is the empty string. *)
Theorem C10_process_environment_wins
    (here module_name : string) (values : dotenv_values) (env0 : environ) :
  ∃ p, startup here module_name values env0 = Returned p
    ∧ (∀ v, env0 !! "SECRET_KEY" = Some v →
            secret_key p
            = PyStr (if bool_decide (v = "") then "dev-key-please-change"
                     else v))
    ∧ (∀ v, env0 !! "DATABASE_URL" = Some v →
            database_uri p
            = PyStr (if bool_decide (v = "")
                     then "postgresql://localhost/card_collector_db"
                     else v)).
Proof.
  destruct (startup_unfold here module_name values env0)
    as (p & Hstart & Henv & _ & Hsk & Hdb).
  exists p. split; [done|].
  rewrite Hsk, Hdb, Henv, !load_dotenv_lookup.
  split; intros v ->; simpl; by repeat case_bool_decide.
Qed.

(** A process environment with a non-empty [SECRET_KEY] and an empty
    [DATABASE_URL], and a file that gives other values for both. *)
Lemma C10_process_environment_wins_witness :
  ∃ p, startup "/srv/app" "app.routes.main"
         (<["SECRET_KEY" := Some "from-dotenv"]>
            (<["DATABASE_URL" := Some "postgresql://dotenv/db"]> ∅))
         (<["SECRET_KEY" := "abc123"]> (<["DATABASE_URL" := ""]> ∅))
       = Returned p
    ∧ secret_key p = PyStr "abc123"
    ∧ database_uri p = PyStr "postgresql://localhost/card_collector_db".
Proof.
  destruct (C10_process_environment_wins "/srv/app" "app.routes.main"
              (<["SECRET_KEY" := Some "from-dotenv"]>
                 (<["DATABASE_URL" := Some "postgresql://dotenv/db"]> ∅))
              (<["SECRET_KEY" := "abc123"]> (<["DATABASE_URL" := ""]> ∅)))
    as (p & Hp & Hsk & Hdb).
  exists p. split; [exact Hp|]. split.
  - apply (Hsk "abc123"). reflexivity.
  - apply (Hdb ""). reflexivity.
Defined.

(** ** Further properties of start-up *)

Section startup_environment.

Implicit Types (env : environ) (values : dotenv_values) (k : string).

(** Loading the same file a second time changes nothing. *)
Lemma load_dotenv_twice values env :
  snd (load_dotenv false values (snd (load_dotenv false values env)))
  = snd (load_dotenv false values env).
Proof.
  apply map_eq. intros k. rewrite !load_dotenv_lookup.
  by destruct (env !! k), (values !! k ≫= id).
Qed.

(** What start-up returns, in full. *)
Lemma startup_returns here module_name values env0 :
  let env := snd (load_dotenv false values env0) in
  startup here module_name values env0
  = Returned
      {| os_environ := env;
         config_globals :=
           {| config.g_basedir := here;
              config.g_Config :=
                {| config.SECRET_KEY :=
                     PyStr (resolve_spec (env !! "SECRET_KEY")
                              "dev-key-please-change");
                   config.SQLALCHEMY_DATABASE_URI :=
                     PyStr (resolve_spec (env !! "DATABASE_URL")
                              "postgresql://localhost/card_collector_db");
                   config.SQLALCHEMY_TRACK_MODIFICATIONS := PyBool false |}
           |};
         main_bp := main.bp module_name |}.
Proof. unfold startup. by rewrite import_unfold. Qed.

End startup_environment.



(** X2: importing [config.py] changes [os.environ], but only by adding:
    every variable the process had keeps its value, and every name in the
    environment afterwards was there before or is bound by the [.env]
    file. *)
Theorem X2_startup_extends_environment
    (here module_name : string) (values : dotenv_values) (env0 : environ) :
  ∃ p, startup here module_name values env0 = Returned p
    ∧ env0 ⊆ os_environ p
    ∧ dom (os_environ p) ⊆ dom env0 ∪ dom values.
Proof.
  destruct (startup_unfold here module_name values env0)
    as (p & Hstart & Henv & _).
  exists p. split; [done|]. rewrite Henv. split.
  - apply map_subseteq_spec. intros k v Hk.
    by rewrite load_dotenv_lookup, Hk.
  - intros k [v Hk]%elem_of_dom. rewrite load_dotenv_lookup in Hk.
    apply elem_of_union. destruct (env0 !! k) as [w|] eqn:Hw.
    + left. apply elem_of_dom. eauto.
    + right. apply elem_of_dom.
      destruct (values !! k) as [o|]; [eauto|done].
Qed.

(** X3: the class body reads [SECRET_KEY] and [DATABASE_URL] and nothing
    else: setting or removing any other variable gives the same
    configuration. *)
Theorem X3_config_reads_two_variables (env : environ) (k v : string) :
  k ≠ "SECRET_KEY" →
  k ≠ "DATABASE_URL" →
  fst (config.Config (<[k := v]> env)) = fst (config.Config env)
  ∧ fst (config.Config (delete k env)) = fst (config.Config env).
Proof.
  intros Hsk Hdb. rewrite !Config_unfold. simpl.
  by rewrite !lookup_insert_ne, !lookup_delete_ne.
Qed.

(** Setting or removing [FLASK_DEBUG] next to a given [SECRET_KEY]. *)
Lemma X3_config_reads_two_variables_witness :
  fst (config.Config (<["FLASK_DEBUG" := "1"]> (<["SECRET_KEY" := "abc123"]> ∅)))
  = fst (config.Config (<["SECRET_KEY" := "abc123"]> ∅))
  ∧ fst (config.Config (delete "FLASK_DEBUG" (<["SECRET_KEY" := "abc123"]> ∅)))
    = fst (config.Config (<["SECRET_KEY" := "abc123"]> ∅)).
Proof.
  apply (X3_config_reads_two_variables
           (<["SECRET_KEY" := "abc123"]> ∅) "FLASK_DEBUG" "1");
    discriminate.
Defined.

(** X4: start-up is idempotent.  A process started again in the environment
    that an earlier start-up left behind, with the same [.env] file, has the
    same environment and the same configuration. *)
Theorem X4_restart_gives_same_process
    (here module_name : string) (values : dotenv_values) (env0 : environ) :
  ∃ p, startup here module_name values env0 = Returned p
    ∧ startup here module_name values (os_environ p) = Returned p.
Proof.
  eexists. split; [apply startup_returns|].
  rewrite startup_returns. cbn [os_environ].
  by rewrite !load_dotenv_twice.
Qed.

(** ** Further properties of the blueprint *)

(** X5: what a [GET] request does to a started process, after any history
    and for any path: it does not raise and leaves the process as it was;
    on [/api/health-check] the response is the healthy one, on every other
    path the blueprint gives none. *)
Theorem X5_get_requests_are_harmless
    (here module_name : string) (values : dotenv_values) (env0 : environ)
    (evs : list event) (path : string) :
  ∃ p0 o,
    startup here module_name values env0 = Returned p0
    ∧ step (Request "GET" path) (exec evs p0) = (Returned o, exec evs p0)
    ∧ o = (if bool_decide (path = "/api/health-check")
           then Some {| flask.status_code := 200;
                        flask.mimetype := "application/json";
                        flask.json := PyDict [("status", PyStr "healthy")] |}
           else None).
Proof.
  destruct (startup_unfold here module_name values env0)
    as (p0 & Hstart & _ & Hbp & _).
  destruct (exec_globals evs p0) as [_ Hbp'].
  exists p0. eexists. split; [done|]. split; [|reflexivity].
  simpl. unfold handle. rewrite Hbp', Hbp.
  unfold main.bp, flask.match_request, flask.route, flask.matches. simpl.
  destruct (decide (path = "/api/health-check")) as [->|Hpath].
  - done.
  - rewrite (bool_decide_eq_false_2 (path = _)) by done.
    by rewrite bool_decide_eq_false_2 by (by intros ?).
Qed.

(** X6: [main.py] registers one rule.  On a started process, after any
    history, a request for any other path gets no response from the
    blueprint, whatever its method. *)
Theorem X6_no_other_path_is_served
    (here module_name : string) (values : dotenv_values) (env0 : environ)
    (evs : list event) (method path : string) :
  path ≠ "/api/health-check" →
  ∃ p0, startup here module_name values env0 = Returned p0
    ∧ fst (step (Request method path) (exec evs p0)) = Returned None.
Proof.
  intros Hpath.
  destruct (startup_unfold here module_name values env0)
    as (p0 & Hstart & _ & Hbp & _).
  exists p0. split; [done|].
  destruct (exec_globals evs p0) as [_ Hbp'].
  simpl. unfold handle. rewrite Hbp', Hbp.
  unfold main.bp, flask.match_request, flask.route, flask.matches. simpl.
  rewrite bool_decide_eq_false_2 by (by intros ?). done.
Qed.

(** A request for [/api/cards] after a health check. *)
Lemma X6_no_other_path_is_served_witness :
  ∃ p0, startup "/srv/app" "app.routes.main" ∅ ∅ = Returned p0
    ∧ fst (step (Request "GET" "/api/cards") (exec [health_query] p0))
      = Returned None.
Proof.
  apply (X6_no_other_path_is_served "/srv/app" "app.routes.main" ∅ ∅
           [health_query] "GET" "/api/cards").
  discriminate.
Defined.
